(** * Saida-Posicional: the status endpoint of [worker/server.js]

    A shallow embedding of the handler registered for
    [GET /api/saida-posicional], with the parts of the JavaScript runtime it
    touches: the values that [JSON.parse] builds, property read and write,
    [JSON.stringify], [fs.existsSync] / [fs.readFileSync], [console.error]
    and the Express response object.

    Strings are Rocq strings holding the UTF-8 bytes of the JavaScript
    string (what [readFileSync(_, "utf8")] decodes from and what [res.json]
    writes to the wire).

    The handler's [res.json] call is completed by Express's [res.send],
    which answers by the method and the conditional headers of the request
    ([res_send], [answer]).  Two executable runtimes, [Fragment.runtime] and
    [Wide.runtime], run the handler on concrete files; for the second,
    reading back what [JSON.stringify] wrote is proved to give the value
    encoded, up to numeric overflow. *)

From Stdlib Require Import String Ascii List Bool Arith NArith ZArith Lia.
From Stdlib Require Import DecimalString.
From Stdlib Require DecimalPos DecimalN DecimalFacts.
Import ListNotations.
Local Open Scope string_scope.
Local Open Scope list_scope.

Set Implicit Arguments.

(** ** JavaScript values reachable from [JSON.parse] *)

Section Values.

(** The runtime's IEEE-754 doubles.  The handler never computes with a
    number: [JSON.parse] builds it, [!data] tests it and [JSON.stringify]
    prints it. *)
Variable number : Type.

(** [JArray elems named]: an Array object has its elements and, like every
    object, may carry further named own properties ([JSON.parse] creates
    none).  [JObject own]: the own properties of a plain object, in
    enumeration order. *)
#[warnings="-register-all"]
Inductive value : Type :=
| JNull
| JBool (b : bool)
| JNumber (n : number)
| JString (s : string)
| JArray (elems : list value) (named : list (string * value))
| JObject (own : list (string * value)).

End Values.

Arguments JNull {number}.
Arguments JBool {number} b.
Arguments JString {number} s.

(** ** Property tables *)

Definition props (V : Type) : Type := list (string * V).

Module Props.
Section Table.
Variable V : Type.

Fixpoint get (o : props V) (k : string) : option V :=
  match o with
  | [] => None
  | (k', v) :: o' => if String.eqb k' k then Some v else get o' k
  end.

Definition has (o : props V) (k : string) : bool :=
  match get o k with Some _ => true | None => false end.

(** Overwrite the value of an existing key; its place is kept. *)
Fixpoint update (o : props V) (k : string) (v : V) : props V :=
  match o with
  | [] => []
  | (k', v') :: o' =>
      if String.eqb k' k then (k', v) :: o' else (k', v') :: update o' k v
  end.

Definition keys (o : props V) : list string := map fst o.

(** The entries whose key is not [k], in order. *)
Definition without (o : props V) (k : string) : props V :=
  filter (fun kv => negb (String.eqb (fst kv) k)) o.

End Table.
End Props.

(** ** Array indices

    Own property keys enumerate array indices first, ascending, then the
    other string keys in creation order (OrdinaryOwnPropertyKeys). *)

Definition is_digit (c : ascii) : bool :=
  let n := nat_of_ascii c in ((48 <=? n) && (n <=? 57))%nat.

Fixpoint digits_value (acc : N) (s : string) : option N :=
  match s with
  | EmptyString => Some acc
  | String c s' =>
      if is_digit c
      then digits_value (acc * 10 + N.of_nat (nat_of_ascii c - 48)) s'
      else None
  end.

(** A canonical numeric string below 2^32 - 1. *)
Definition array_index (k : string) : option N :=
  match k with
  | EmptyString => None
  | String c rest =>
      if Ascii.eqb c "0" && negb (String.eqb rest EmptyString) then None
      else match digits_value 0 k with
           | Some n => if (n <? 4294967295)%N then Some n else None
           | None => None
           end
  end.

Section CreateProperty.
Variable V : Type.

(** Place a new index key before the first entry that is a larger index
    or not an index at all. *)
Fixpoint insert_index (o : props V) (i : N) (k : string) (v : V) : props V :=
  match o with
  | [] => [(k, v)]
  | (k', v') :: o' =>
      match array_index k' with
      | Some j => if (j <? i)%N then (k', v') :: insert_index o' i k v
                  else (k, v) :: o
      | None => (k, v) :: o
      end
  end.

(** [o.k = v] on an ordinary object: OrdinarySet, which ends in
    CreateDataProperty when the key is new. *)
Definition set_property (o : props V) (k : string) (v : V) : props V :=
  if Props.has o k then Props.update o k v
  else match array_index k with
       | Some i => insert_index o i k v
       | None => o ++ [(k, v)]
       end.

End CreateProperty.

(** ** Completions: a statement finishes normally or throws *)

Inductive js_error : Type :=
| SyntaxError
| TypeError
| SystemError (code : string).

Inductive completion (A : Type) : Type :=
| Normal (a : A)
| Throw (e : js_error).

Arguments Normal {A} a.
Arguments Throw {A} e.

Definition bind {A B : Type} (c : completion A) (k : A -> completion B)
  : completion B :=
  match c with
  | Normal a => k a
  | Throw e => Throw e
  end.

Notation "x <- c ;; k" := (bind c (fun x => k))
  (at level 61, c at next level, right associativity).

(** ** The file system as the handler sees it *)

Inductive node : Type :=
| Missing
| Regular (content : string)
| Unreadable (code : string).

Definition filesystem : Type := string -> node.

Definition existsSync (fs : filesystem) (p : string) : bool :=
  match fs p with
  | Missing => false
  | _ => true
  end.

Definition readFileSync (fs : filesystem) (p : string) : completion string :=
  match fs p with
  | Missing => Throw (SystemError "ENOENT")
  | Regular content => Normal content
  | Unreadable code => Throw (SystemError code)
  end.

(** ** The process: file system and the diagnostic stream *)

Record log_line : Type := LogLine { log_text : string; log_detail : js_error }.

Record process : Type := Process { fs : filesystem; stderr : list log_line }.

Definition console_error (text : string) (err : js_error) (p : process)
  : process :=
  {| fs := fs p; stderr := stderr p ++ [LogLine text err] |}.

(** The request as the handler and Express see it; header names are in lower
    case, as Node delivers them. *)
Record request : Type :=
  Request { method : string; url : string; headers : list (string * string) }.

(** ** Quoting a string for JSON (QuoteJSONString) *)

(** The double quote character. *)
Definition dquote : ascii := ascii_of_nat 34.

Definition hex_digit (n : nat) : ascii :=
  if (n <? 10)%nat then ascii_of_nat (48 + n) else ascii_of_nat (87 + n).

Definition quote_char (c : ascii) : string :=
  let n := nat_of_ascii c in
  if (n =? 8)%nat then "\b"
  else if (n =? 9)%nat then "\t"
  else if (n =? 10)%nat then "\n"
  else if (n =? 12)%nat then "\f"
  else if (n =? 13)%nat then "\r"
  else if (n =? 34)%nat then String "\" (String dquote EmptyString)
  else if (n =? 92)%nat then "\\"
  else if (n <? 32)%nat
       then "\u00" ++ String (hex_digit (n / 16)) (String (hex_digit (n mod 16)) EmptyString)
       else String c EmptyString.

Fixpoint quote_chars (s : string) : string :=
  match s with
  | EmptyString => EmptyString
  | String c s' => quote_char c ++ quote_chars s'
  end.

Definition quote (s : string) : string :=
  String dquote (quote_chars s ++ String dquote EmptyString).

(** ** The runtime the handler runs on *)

Record Runtime : Type := {
  number : Type;
  (** ToBoolean on a number: false for +0, -0 and NaN. *)
  number_ToBoolean : number -> bool;
  (** A number inside [JSON.stringify]: its shortest decimal form, or
      [null] when it is not finite. *)
  number_toJSON : number -> string;
  (** [JSON.parse]; [None] when it throws a SyntaxError. *)
  JSON_parse : string -> option (value number)
}.

Section Server.
Variable rt : Runtime.

Local Abbreviation val := (value (number rt)).

(** [!!v] *)
Definition ToBoolean (v : val) : bool :=
  match v with
  | JNull => false
  | JBool b => b
  | JNumber n => number_ToBoolean rt n
  | JString s => negb (String.eqb s EmptyString)
  | JArray _ _ => true
  | JObject _ => true
  end.

(** [typeof v] *)
Definition typeof (v : val) : string :=
  match v with
  | JNull => "object"
  | JBool _ => "boolean"
  | JNumber _ => "number"
  | JString _ => "string"
  | JArray _ _ => "object"
  | JObject _ => "object"
  end.

(** [v.k], for a key that is neither an array index nor a name defined by
    the built-in prototypes (the handler reads [posicional] only).  [None]
    is [undefined]. *)
Definition Get (v : val) (k : string) : completion (option val) :=
  match v with
  | JNull => Throw TypeError
  | JBool _ | JNumber _ | JString _ => Normal None
  | JArray _ named => Normal (Props.get named k)
  | JObject own => Normal (Props.get own k)
  end.

(** [v.k = w] in sloppy mode, same keys as [Get]: the object is updated in
    place, so the binding [v] afterwards denotes the updated object. *)
Definition Put (v : val) (k : string) (w : val) : completion val :=
  match v with
  | JNull => Throw TypeError
  | JBool _ | JNumber _ | JString _ => Normal v
  | JArray elems named => Normal (JArray elems (set_property named k w))
  | JObject own => Normal (JObject (set_property own k w))
  end.

Definition Array_isArray (v : option val) : bool :=
  match v with
  | Some (JArray _ _) => true
  | _ => false
  end.

(** [JSON.stringify v] without indentation.  An array is serialised by its
    elements; its named properties are not visited. *)
Fixpoint JSON_stringify (v : val) : string :=
  match v with
  | JNull => "null"
  | JBool true => "true"
  | JBool false => "false"
  | JNumber n => number_toJSON rt n
  | JString s => quote s
  | JArray elems _ =>
      "[" ++ String.concat "," (map JSON_stringify elems) ++ "]"
  | JObject own =>
      "{" ++ String.concat ","
               (map (fun kv => let '(k, w) := kv in
                               quote k ++ ":" ++ JSON_stringify w) own)
          ++ "}"
  end%string.

(** What the handler does to [res]: the status code it leaves or sets, and
    the value it gives to [res.json].  What Express then writes for a given
    request is [res_send], below. *)
Record response : Type := Response { statusCode : nat; sent : val }.

(** The call [res.json(v)] on the untouched [res]: the status stays at its
    default, 200. *)
Definition res_json (v : val) : response :=
  {| statusCode := 200; sent := v |}.

(** The call [res.status(code).json(v)]. *)
Definition res_status_json (code : nat) (v : val) : response :=
  {| statusCode := code; sent := v |}.

(** The text that [res.json] computes from the value and hands to
    [res.send]. *)
Definition body (r : response) : string := JSON_stringify (sent r).

Definition SAIDA_PATH : string :=
  "/home/roteiro_ds/autotrader-saida-posicional/data/saida_posicional.json".

(** [{ posicional: [], ultima_atualizacao: null }] *)
Definition empty_document : val :=
  JObject [("posicional", JArray [] []); ("ultima_atualizacao", JNull)].

(** [{ erro: "Falha ao ler dados de saída" }] *)
Definition erro_document : val :=
  JObject [("erro", JString "Falha ao ler dados de saída")].

Definition parse (raw : string) : completion val :=
  match JSON_parse rt raw with
  | Some v => Normal v
  | None => Throw SyntaxError
  end.

(** Lines 14 to 28: the body of the [try]. *)
Definition try_block (fs : filesystem) : completion response :=
  if negb (existsSync fs SAIDA_PATH) then
    Normal (res_json empty_document)
  else
    raw <- readFileSync fs SAIDA_PATH ;;
    data <- parse raw ;;
    let data :=
      if negb (ToBoolean data) || negb (String.eqb (typeof data) "object")
      then empty_document else data in
    posicional <- Get data "posicional" ;;
    data <- (if negb (Array_isArray posicional)
             then Put data "posicional" (JArray [] [])
             else Normal data) ;;
    Normal (res_json data).

(** Lines 12 to 33: the route handler. *)
Definition handler (req : request) (p : process) : process * response :=
  match try_block (fs p) with
  | Normal r => (p, r)
  | Throw err =>
      (console_error "[ERRO] Lendo saida_posicional.json:" err p,
       res_status_json 500 erro_document)
  end.

End Server.

Arguments body rt r : clear implicits.

(** ** An executable runtime for JSON texts with integer numbers

    The theorems below hold for every [Runtime].  To run the handler on
    concrete files, [Fragment.runtime] implements the interface for the JSON
    texts whose numbers are integer literals of magnitude at most 2^53 and
    whose strings use no [\u] escape; on these texts it computes what
    [JSON.parse] and [JSON.stringify] compute.  Texts outside the fragment
    are not accepted by [Fragment.parse_text]. *)

Module Fragment.

Definition is_ws (c : ascii) : bool :=
  let n := nat_of_ascii c in
  ((n =? 32) || (n =? 9) || (n =? 10) || (n =? 13))%nat.

Fixpoint skip_ws (s : string) : string :=
  match s with
  | EmptyString => s
  | String c s' => if is_ws c then skip_ws s' else s
  end.

(** [strip p s]: the rest of [s] after the prefix [p]. *)
Fixpoint strip (p s : string) : option string :=
  match p, s with
  | EmptyString, _ => Some s
  | String a p', String b s' => if Ascii.eqb a b then strip p' s' else None
  | String _ _, EmptyString => None
  end.

(** The character denoted by a one-letter escape. *)
Definition unescape (c : ascii) : option ascii :=
  let n := nat_of_ascii c in
  if (n =? 34)%nat then Some c
  else if (n =? 92)%nat then Some c
  else if (n =? 47)%nat then Some c
  else if Ascii.eqb c "b" then Some (ascii_of_nat 8)
  else if Ascii.eqb c "f" then Some (ascii_of_nat 12)
  else if Ascii.eqb c "n" then Some (ascii_of_nat 10)
  else if Ascii.eqb c "r" then Some (ascii_of_nat 13)
  else if Ascii.eqb c "t" then Some (ascii_of_nat 9)
  else None.

(** The characters of a string literal after its opening quote, up to the
    closing quote; control characters are not allowed unescaped. *)
Fixpoint parse_chars (s : string) : option (string * string) :=
  match s with
  | EmptyString => None
  | String c s' =>
      if Ascii.eqb c dquote then Some (EmptyString, s')
      else if Ascii.eqb c "\" then
        match s' with
        | String e s'' =>
            match unescape e, parse_chars s'' with
            | Some c', Some (str, rest) => Some (String c' str, rest)
            | _, _ => None
            end
        | EmptyString => None
        end
      else if (nat_of_ascii c <? 32)%nat then None
      else match parse_chars s' with
           | Some (str, rest) => Some (String c str, rest)
           | None => None
           end
  end.

(** The longest prefix of digits, and the rest. *)
Fixpoint take_digits (s : string) : string * string :=
  match s with
  | EmptyString => (EmptyString, EmptyString)
  | String c s' =>
      if is_digit c
      then let '(ds, rest) := take_digits s' in (String c ds, rest)
      else (EmptyString, s)
  end.

Definition starts_fraction_or_exponent (s : string) : bool :=
  match s with
  | String c _ => Ascii.eqb c "." || Ascii.eqb c "e" || Ascii.eqb c "E"
  | EmptyString => false
  end.

(** An unsigned integer literal: [0], or digits without a leading zero. *)
Definition parse_nat (s : string) : option (N * string) :=
  let '(ds, rest) := take_digits s in
  match ds with
  | EmptyString => None
  | String c more =>
      if Ascii.eqb c "0" && negb (String.eqb more EmptyString) then None
      else if starts_fraction_or_exponent rest then None
      else match digits_value 0 ds with
           | Some n => if (n <=? 9007199254740992)%N then Some (n, rest)
                       else None
           | None => None
           end
  end.

Definition parse_number (s : string) : option (Z * string) :=
  match s with
  | String c s' =>
      if Ascii.eqb c "-" then
        match parse_nat s' with
        | Some (n, rest) => Some ((- Z.of_N n)%Z, rest)
        | None => None
        end
      else
        match parse_nat s with
        | Some (n, rest) => Some (Z.of_N n, rest)
        | None => None
        end
  | EmptyString => None
  end.

Definition keyword (s : string) : option (value Z * string) :=
  match strip "null" s, strip "true" s, strip "false" s with
  | Some rest, _, _ => Some (JNull, rest)
  | _, Some rest, _ => Some (JBool true, rest)
  | _, _, Some rest => Some (JBool false, rest)
  | _, _, _ => None
  end.

(** Recursive descent on the JSON grammar.  Members are added with
    [set_property], as [JSON.parse] does with CreateDataProperty: a repeated
    key keeps its place and takes the later value, index keys come first. *)
Fixpoint parse_value (fuel : nat) (s : string) : option (value Z * string) :=
  match fuel with
  | O => None
  | S fuel' =>
      match skip_ws s with
      | EmptyString => None
      | String c s' =>
          if Ascii.eqb c "{" then
            match skip_ws s' with
            | String c' rest =>
                if Ascii.eqb c' "}" then Some (JObject [], rest)
                else parse_members fuel' s' []
            | EmptyString => None
            end
          else if Ascii.eqb c "[" then
            match skip_ws s' with
            | String c' rest =>
                if Ascii.eqb c' "]" then Some (JArray [] [], rest)
                else parse_elements fuel' s' []
            | EmptyString => None
            end
          else if Ascii.eqb c dquote then
            match parse_chars s' with
            | Some (str, rest) => Some (JString str, rest)
            | None => None
            end
          else if Ascii.eqb c "-" || is_digit c then
            match parse_number (String c s') with
            | Some (z, rest) => Some (JNumber z, rest)
            | None => None
            end
          else keyword (String c s')
      end
  end
with parse_elements (fuel : nat) (s : string) (acc : list (value Z))
  : option (value Z * string) :=
  match fuel with
  | O => None
  | S fuel' =>
      match parse_value fuel' s with
      | Some (v, rest) =>
          match skip_ws rest with
          | String c rest' =>
              if Ascii.eqb c "," then parse_elements fuel' rest' (acc ++ [v])
              else if Ascii.eqb c "]" then Some (JArray (acc ++ [v]) [], rest')
              else None
          | EmptyString => None
          end
      | None => None
      end
  end
with parse_members (fuel : nat) (s : string) (acc : props (value Z))
  : option (value Z * string) :=
  match fuel with
  | O => None
  | S fuel' =>
      match skip_ws s with
      | String q s1 =>
          if Ascii.eqb q dquote then
            match parse_chars s1 with
            | Some (k, s2) =>
                match skip_ws s2 with
                | String colon s3 =>
                    if Ascii.eqb colon ":" then
                      match parse_value fuel' s3 with
                      | Some (v, s4) =>
                          match skip_ws s4 with
                          | String c s5 =>
                              if Ascii.eqb c "," then
                                parse_members fuel' s5 (set_property acc k v)
                              else if Ascii.eqb c "}" then
                                Some (JObject (set_property acc k v), s5)
                              else None
                          | EmptyString => None
                          end
                      | None => None
                      end
                    else None
                | EmptyString => None
                end
            | None => None
            end
          else None
      | EmptyString => None
      end
  end.

Definition parse_text (s : string) : option (value Z) :=
  match parse_value (2 * String.length s + 2) s with
  | Some (v, rest) =>
      match skip_ws rest with
      | EmptyString => Some v
      | String _ _ => None
      end
  | None => None
  end.

Definition Z_toJSON (z : Z) : string := NilZero.string_of_int (Z.to_int z).

Definition runtime : Runtime :=
  {| number := Z;
     number_ToBoolean := fun z => negb (Z.eqb z 0);
     number_toJSON := Z_toJSON;
     JSON_parse := parse_text |}.

End Fragment.

(** JSON texts are written below with an apostrophe where the text has a
    double quote. *)
Fixpoint json_text (s : string) : string :=
  match s with
  | EmptyString => EmptyString
  | String c s' => String (if Ascii.eqb c "'" then dquote else c) (json_text s')
  end.

(** A file system holding the artifact and nothing else. *)
Definition disk (artifact : node) : filesystem :=
  fun p => if String.eqb p SAIDA_PATH then artifact else Missing.

Definition booted (artifact : node) : process :=
  {| fs := disk artifact; stderr := [] |}.

Definition GET_saida : request :=
  {| method := "GET"; url := "/api/saida-posicional"; headers := [] |}.

(** The own property [k] of an object value; [None] when there is none. *)
Definition property {number : Type} (v : value number) (k : string)
  : option (value number) :=
  match v with
  | JObject own => Props.get own k
  | JArray _ named => Props.get named k
  | _ => None
  end.

(** The keys that [JSON.stringify] writes for [v]: those of a plain object,
    none otherwise. *)
Definition own_keys {number : Type} (v : value number) : list string :=
  match v with
  | JObject own => Props.keys own
  | _ => []
  end.

(** [null], a boolean, a number or a string. *)
Definition is_primitive {number : Type} (v : value number) : bool :=
  match v with
  | JArray _ _ | JObject _ => false
  | _ => true
  end.

(** How the spec classifies a request that cannot be served: the file is
    there but reading it fails, or its content is not JSON. *)
Inductive ReadFailure (rt : Runtime) (fs : filesystem) : Prop :=
| IOFailure (code : string) :
    fs SAIDA_PATH = Unreadable code -> ReadFailure rt fs
| ParseFailure (raw : string) :
    fs SAIDA_PATH = Regular raw -> JSON_parse rt raw = None ->
    ReadFailure rt fs.

(** The text [{"posicional":[],"ultima_atualizacao":null}]. *)
Definition empty_document_text : string :=
  json_text "{'posicional':[],'ultima_atualizacao':null}".

(** The text [{"erro":"Falha ao ler dados de saída"}]. *)
Definition erro_document_text : string :=
  json_text "{'erro':'Falha ao ler dados de saída'}".

(** The line the handler writes to the diagnostic stream for [err]. *)
Definition diagnostic (err : js_error) : log_line :=
  LogLine "[ERRO] Lendo saida_posicional.json:" err.

(** What a request can observe of the artifact: whether it exists, and its
    content when it can be read. *)
Definition artifact_state (n : node) : bool * option string :=
  match n with
  | Missing => (false, None)
  | Regular content => (true, Some content)
  | Unreadable _ => (true, None)
  end.

(** ** The files of the concrete scenarios *)

Definition valid_text : string :=
  json_text
    "{'posicional':[{'id':1}],'ultima_atualizacao':'2024-01-01T00:00:00Z'}".

Definition valid_object : props (value Z) :=
  [("posicional", JArray [JObject [("id", JNumber 1%Z)]] []);
   ("ultima_atualizacao", JString "2024-01-01T00:00:00Z")].

Definition array_text : string := json_text "[1,2,3]".

Definition string_posicional_text : string :=
  json_text "{'posicional':'not-an-array'}".

Definition garbage_text : string := "not valid json{{{".

Definition null_posicional_text : string :=
  json_text "{'versao':7,'posicional':null,'ultima_atualizacao':'ontem'}".

Definition null_posicional_object : props (value Z) :=
  [("versao", JNumber 7%Z); ("posicional", JNull);
   ("ultima_atualizacao", JString "ontem")].

(** A process that has already logged something. *)
Definition logged (artifact : node) : process :=
  {| fs := disk artifact; stderr := [diagnostic TypeError] |}.

Definition GET_saida_again : request :=
  {| method := "GET"; url := "/api/saida-posicional?x=1"; headers := [] |}.

(** The handler on the executable runtime, for one request on a fresh
    process. *)
Local Abbreviation run artifact :=
  (handler Fragment.runtime GET_saida (booted artifact)).
Local Abbreviation body_of artifact :=
  (body Fragment.runtime (snd (run artifact))).
Local Abbreviation status_of artifact := (statusCode (snd (run artifact))).

(** The lines one request adds to the diagnostic stream. *)
Definition logged_by (rt : Runtime) (fs : filesystem) : list log_line :=
  match try_block rt fs with
  | Normal _ => []
  | Throw err => [diagnostic err]
  end.

Definition zero_text : string := "0".

Definition empty_array_text : string := "[]".

Definition no_posicional_text : string :=
  json_text "{'versao':7,'7':true,'ultima_atualizacao':'ontem'}".

Definition no_posicional_object : props (value Z) :=
  [("7", JBool true); ("versao", JNumber 7%Z);
   ("ultima_atualizacao", JString "ontem")].

Definition normalized_text : string := json_text "{'posicional':[]}".

(** ** What Express writes for the call: [res.send]

    [res.json] ends in [res.send(body)], which looks at the request before
    it writes: a fresh conditional request is answered 304 without a body,
    and a HEAD request never gets a body.  The freshness test compares the
    conditional headers of the request with the entity tag that the
    application's [etag fn] computes from the body; both belong to the
    installed Express and are taken as a parameter. *)

Record Framework : Type := {
  (** [fresh(req.headers, { etag: etagFn(chunk) })]; the handler sets no
      [Last-Modified]. *)
  entity_fresh : list (string * string) -> string -> bool
}.

(** What goes on the wire; an empty [wire_body] is no body. *)
Record wire : Type := Wire { wire_status : nat; wire_body : string }.

(** The getter [req.fresh]: GET or HEAD only, and only for a 2xx or 304
    status. *)
Definition req_fresh (fw : Framework) (req : request) (status : nat)
    (chunk : string) : bool :=
  (String.eqb (method req) "GET" || String.eqb (method req) "HEAD")
  && (((200 <=? status) && (status <? 300)) || (status =? 304))%nat
  && entity_fresh fw (headers req) chunk.

(** [res.send(chunk)] for a string [chunk], with [res.statusCode] equal to
    [status]. *)
Definition res_send (fw : Framework) (req : request) (status : nat)
    (chunk : string) : wire :=
  let status := if req_fresh fw req status chunk then 304 else status in
  let chunk :=
    if ((status =? 204) || (status =? 304))%nat then EmptyString else chunk in
  {| wire_status := status;
     wire_body := if String.eqb (method req) "HEAD" then EmptyString
                  else chunk |}.

(** One request from the route to the wire: the handler runs, and its
    [res.json] call is completed by [res.send]. *)
Definition answer (fw : Framework) (rt : Runtime) (req : request)
    (p : process) : process * wire :=
  let (p', r) := handler rt req p in
  (p', res_send fw req (statusCode r) (body rt r)).

(** An executable [Framework] for requests that carry no [If-Modified-Since]
    and no [Cache-Control], and whose [If-None-Match] is absent or [*]: such
    a request is fresh exactly when [If-None-Match] is [*], whatever the
    entity tag.  Other requests are outside this fragment. *)
Module Revalidation.

Definition header (hs : list (string * string)) (name : string) : string :=
  match Props.get hs name with
  | Some v => v
  | None => EmptyString
  end.

Definition fresh (hs : list (string * string)) (chunk : string) : bool :=
  String.eqb (header hs "if-none-match") "*"
  && String.eqb (header hs "if-modified-since") EmptyString
  && String.eqb (header hs "cache-control") EmptyString.

Definition framework : Framework := {| entity_fresh := fresh |}.

End Revalidation.

Definition HEAD_saida : request :=
  {| method := "HEAD"; url := "/api/saida-posicional"; headers := [] |}.

Definition GET_saida_if_none_match_any : request :=
  {| method := "GET"; url := "/api/saida-posicional";
     headers := [("if-none-match", "*")] |}.

(** ** An executable runtime with numeric overflow

    [Wide.runtime] reads the same JSON texts as [Fragment.runtime] and, in
    addition, integer literals with an exponent.  A literal of magnitude at
    least 2^1024 denotes no finite double: [JSON.parse] reads it as
    [Infinity], and [JSON.stringify] writes [Infinity] as [null].  A
    literal of magnitude above 2^53 and below 2^1024, a fraction and a
    negative exponent of a non-zero number are outside the fragment. *)

Module Wide.

Inductive double : Type :=
| Finite (z : Z)
| Infinity (negative : bool).

Definition max_safe : N := 9007199254740992.

Definition overflow : N := 2 ^ 1024.

Definition signed (negative : bool) (n : N) : Z :=
  if negative then (- Z.of_N n)%Z else Z.of_N n.

(** The double denoted by [m * 10^e], with its sign. *)
Definition scale (negative : bool) (m e : N) : option double :=
  if (m =? 0)%N then Some (Finite 0)
  else if (309 <=? e)%N then Some (Infinity negative)
  else let n := (m * 10 ^ e)%N in
       if (n <=? max_safe)%N then Some (Finite (signed negative n))
       else if (overflow <=? n)%N then Some (Infinity negative)
       else None.

(** The digits after [e] or [E], with their sign. *)
Definition parse_exponent (negative : bool) (m : N) (s : string)
  : option (double * string) :=
  let '(minus, s1) :=
    match s with
    | String c s' =>
        if Ascii.eqb c "-" then (true, s')
        else if Ascii.eqb c "+" then (false, s')
        else (false, s)
    | EmptyString => (false, s)
    end in
  let '(ds, rest) := Fragment.take_digits s1 in
  match ds with
  | EmptyString => None
  | String _ _ =>
      match digits_value 0 ds with
      | Some e =>
          if minus && negb ((m =? 0) || (e =? 0))%N then None
          else match scale negative m (if minus then 0%N else e) with
               | Some d => Some (d, rest)
               | None => None
               end
      | None => None
      end
  end.

(** A number literal after its sign. *)
Definition parse_unsigned (negative : bool) (s : string)
  : option (double * string) :=
  let '(ds, rest) := Fragment.take_digits s in
  match ds with
  | EmptyString => None
  | String c more =>
      if Ascii.eqb c "0" && negb (String.eqb more EmptyString) then None
      else match digits_value 0 ds with
           | Some m =>
               match rest with
               | String c' rest' =>
                   if Ascii.eqb c' "." then None
                   else if Ascii.eqb c' "e" || Ascii.eqb c' "E"
                   then parse_exponent negative m rest'
                   else match scale negative m 0 with
                        | Some d => Some (d, rest)
                        | None => None
                        end
               | EmptyString =>
                   match scale negative m 0 with
                   | Some d => Some (d, rest)
                   | None => None
                   end
               end
           | None => None
           end
  end.

Definition keyword (s : string) : option (value double * string) :=
  match Fragment.strip "null" s, Fragment.strip "true" s,
        Fragment.strip "false" s with
  | Some rest, _, _ => Some (JNull, rest)
  | _, Some rest, _ => Some (JBool true, rest)
  | _, _, Some rest => Some (JBool false, rest)
  | _, _, _ => None
  end.

Fixpoint parse_value (fuel : nat) (s : string)
  : option (value double * string) :=
  match fuel with
  | O => None
  | S fuel' =>
      match Fragment.skip_ws s with
      | EmptyString => None
      | String c s' =>
          if Ascii.eqb c "{" then
            match Fragment.skip_ws s' with
            | String c' rest =>
                if Ascii.eqb c' "}" then Some (JObject [], rest)
                else parse_members fuel' s' []
            | EmptyString => None
            end
          else if Ascii.eqb c "[" then
            match Fragment.skip_ws s' with
            | String c' rest =>
                if Ascii.eqb c' "]" then Some (JArray [] [], rest)
                else parse_elements fuel' s' []
            | EmptyString => None
            end
          else if Ascii.eqb c dquote then
            match Fragment.parse_chars s' with
            | Some (str, rest) => Some (JString str, rest)
            | None => None
            end
          else if Ascii.eqb c "-" then
            match parse_unsigned true s' with
            | Some (d, rest) => Some (JNumber d, rest)
            | None => None
            end
          else if is_digit c then
            match parse_unsigned false (String c s') with
            | Some (d, rest) => Some (JNumber d, rest)
            | None => None
            end
          else keyword (String c s')
      end
  end
with parse_elements (fuel : nat) (s : string) (acc : list (value double))
  : option (value double * string) :=
  match fuel with
  | O => None
  | S fuel' =>
      match parse_value fuel' s with
      | Some (v, rest) =>
          match Fragment.skip_ws rest with
          | String c rest' =>
              if Ascii.eqb c "," then parse_elements fuel' rest' (acc ++ [v])
              else if Ascii.eqb c "]" then Some (JArray (acc ++ [v]) [], rest')
              else None
          | EmptyString => None
          end
      | None => None
      end
  end
with parse_members (fuel : nat) (s : string) (acc : props (value double))
  : option (value double * string) :=
  match fuel with
  | O => None
  | S fuel' =>
      match Fragment.skip_ws s with
      | String q s1 =>
          if Ascii.eqb q dquote then
            match Fragment.parse_chars s1 with
            | Some (k, s2) =>
                match Fragment.skip_ws s2 with
                | String colon s3 =>
                    if Ascii.eqb colon ":" then
                      match parse_value fuel' s3 with
                      | Some (v, s4) =>
                          match Fragment.skip_ws s4 with
                          | String c s5 =>
                              if Ascii.eqb c "," then
                                parse_members fuel' s5 (set_property acc k v)
                              else if Ascii.eqb c "}" then
                                Some (JObject (set_property acc k v), s5)
                              else None
                          | EmptyString => None
                          end
                      | None => None
                      end
                    else None
                | EmptyString => None
                end
            | None => None
            end
          else None
      | EmptyString => None
      end
  end.

Definition parse_text (s : string) : option (value double) :=
  match parse_value (2 * String.length s + 2) s with
  | Some (v, rest) =>
      match Fragment.skip_ws rest with
      | EmptyString => Some v
      | String _ _ => None
      end
  | None => None
  end.

Definition toJSON (d : double) : string :=
  match d with
  | Finite z => Fragment.Z_toJSON z
  | Infinity _ => "null"
  end.

Definition runtime : Runtime :=
  {| number := double;
     number_ToBoolean :=
       fun d => match d with
                | Finite z => negb (Z.eqb z 0)
                | Infinity _ => true
                end;
     number_toJSON := toJSON;
     JSON_parse := parse_text |}.



End Wide.


Definition escaped_text : string :=
  json_text
    "{'10':-40,'2':[],'posicional':[{'id':1e2,'nota':'a\'b\\c\/d'},[true,null]],'ultima_atualizacao':'2024-01-01T00:00:00Z'}".



(** ** What [Wide.parse_text] builds, and what reads back

    The values that [Wide.parse_text] returns are well formed: numbers are
    in range, strings hold no control character that only a [\u] escape
    could spell, arrays have no named property, and the keys of an object
    are distinct and in enumeration order. *)















(** The first character of an encoded value: not white space, not a
    closing bracket. *)
Definition opens_value (s : string) : Prop :=
  match s with
  | EmptyString => False
  | String c _ =>
      Fragment.is_ws c = false /\ Ascii.eqb c "]" = false
  end.

(** * Properties of property tables *)

Section PropsFacts.
Variable V : Type.
Implicit Types (o : props V) (k : string) (v : V).

Lemma has_false_get o k : Props.has o k = false <-> Props.get o k = None.
Proof.
  unfold Props.has. destruct (Props.get o k); split; congruence.
Qed.

Lemma has_true_get o k :
  Props.has o k = true <-> exists v, Props.get o k = Some v.
Proof.
  unfold Props.has. destruct (Props.get o k) as [v|]; split.
  - intros _. now exists v.
  - reflexivity.
  - discriminate.
  - intros [v H]. discriminate.
Qed.

Lemma get_update_same o k v :
  Props.has o k = true -> Props.get (Props.update o k v) k = Some v.
Proof.
  unfold Props.has. induction o as [|[k0 v0] o IH]; simpl.
  - discriminate.
  - destruct (String.eqb k0 k) eqn:E; simpl; rewrite E.
    + reflexivity.
    + exact IH.
Qed.

Lemma get_update_other o k k' v :
  k' <> k -> Props.get (Props.update o k v) k' = Props.get o k'.
Proof.
  intros Hk. induction o as [|[k0 v0] o IH]; simpl.
  - reflexivity.
  - destruct (String.eqb k0 k) eqn:E; simpl.
    + apply String.eqb_eq in E. subst k0.
      destruct (String.eqb k k') eqn:E'.
      * apply String.eqb_eq in E'. congruence.
      * reflexivity.
    + destruct (String.eqb k0 k'); [reflexivity | exact IH].
Qed.

Lemma keys_update o k v : Props.keys (Props.update o k v) = Props.keys o.
Proof.
  unfold Props.keys. induction o as [|[k0 v0] o IH]; simpl.
  - reflexivity.
  - destruct (String.eqb k0 k); simpl; [reflexivity | now rewrite IH].
Qed.

Lemma without_update o k v :
  Props.without (Props.update o k v) k = Props.without o k.
Proof.
  unfold Props.without. induction o as [|[k0 v0] o IH]; simpl.
  - reflexivity.
  - destruct (String.eqb k0 k) eqn:E; simpl; rewrite E; simpl.
    + reflexivity.
    + now rewrite IH.
Qed.

Lemma get_insert_index_same o i k v :
  Props.has o k = false -> Props.get (insert_index o i k v) k = Some v.
Proof.
  unfold Props.has. induction o as [|[k0 v0] o IH]; simpl.
  - now rewrite String.eqb_refl.
  - destruct (String.eqb k0 k) eqn:E; [discriminate|]. intros H.
    destruct (array_index k0) as [j|]; [destruct (j <? i)%N|]; simpl.
    + rewrite E. now apply IH.
    + now rewrite String.eqb_refl.
    + now rewrite String.eqb_refl.
Qed.

Lemma get_insert_index_other o i k k' v :
  k' <> k -> Props.get (insert_index o i k v) k' = Props.get o k'.
Proof.
  intros Hk. apply not_eq_sym in Hk. apply String.eqb_neq in Hk.
  induction o as [|[k0 v0] o IH]; simpl.
  - now rewrite Hk.
  - destruct (array_index k0) as [j|]; [destruct (j <? i)%N|]; simpl.
    + destruct (String.eqb k0 k'); [reflexivity | exact IH].
    + now rewrite Hk.
    + now rewrite Hk.
Qed.

Lemma without_insert_index o i k v :
  Props.without (insert_index o i k v) k = Props.without o k.
Proof.
  unfold Props.without. induction o as [|[k0 v0] o IH]; simpl.
  - now rewrite String.eqb_refl.
  - destruct (array_index k0) as [j|]; [destruct (j <? i)%N|]; simpl.
    + destruct (String.eqb k0 k); simpl; [exact IH | now rewrite IH].
    + now rewrite String.eqb_refl.
    + now rewrite String.eqb_refl.
Qed.

Lemma get_app o o' k :
  Props.get (o ++ o') k =
  match Props.get o k with Some v => Some v | None => Props.get o' k end.
Proof.
  induction o as [|[k0 v0] o IH]; simpl.
  - reflexivity.
  - destruct (String.eqb k0 k); [reflexivity | exact IH].
Qed.

Lemma without_app o o' k :
  Props.without (o ++ o') k = Props.without o k ++ Props.without o' k.
Proof. unfold Props.without. apply filter_app. Qed.

(** Reading back the key just written. *)
Lemma get_set_same o k v : Props.get (set_property o k v) k = Some v.
Proof.
  unfold set_property. destruct (Props.has o k) eqn:H.
  - now apply get_update_same.
  - destruct (array_index k) as [i|].
    + now apply get_insert_index_same.
    + rewrite get_app. apply has_false_get in H. rewrite H. simpl.
      now rewrite String.eqb_refl.
Qed.

(** Writing one key leaves every other key as it was. *)
Lemma get_set_other o k k' v :
  k' <> k -> Props.get (set_property o k v) k' = Props.get o k'.
Proof.
  intros Hk. unfold set_property. destruct (Props.has o k).
  - now apply get_update_other.
  - destruct (array_index k) as [i|].
    + now apply get_insert_index_other.
    + rewrite get_app. destruct (Props.get o k'); [reflexivity|]. simpl.
      apply not_eq_sym in Hk. apply String.eqb_neq in Hk. now rewrite Hk.
Qed.

(** Writing one key keeps the other entries, and their order. *)
Lemma without_set o k v :
  Props.without (set_property o k v) k = Props.without o k.
Proof.
  unfold set_property. destruct (Props.has o k).
  - apply without_update.
  - destruct (array_index k) as [i|].
    + apply without_insert_index.
    + rewrite without_app. unfold Props.without at 2. simpl.
      rewrite String.eqb_refl. simpl. apply app_nil_r.
Qed.

(** A key that is already there keeps its place. *)
Lemma set_existing o k v :
  Props.has o k = true -> set_property o k v = Props.update o k v.
Proof. unfold set_property. now intros ->. Qed.

(** A new key that is not an array index goes last. *)
Lemma set_new_name o k v :
  Props.has o k = false -> array_index k = None ->
  set_property o k v = o ++ [(k, v)].
Proof. unfold set_property. now intros -> ->. Qed.

End PropsFacts.

(** * The handler, case by case *)

Section HandlerFacts.
Variable rt : Runtime.
Implicit Types (req : request) (p : process) (raw : string).

Local Abbreviation val := (value (number rt)).

Ltac run_handler H :=
  unfold handler, try_block, existsSync, readFileSync, parse;
  rewrite H; simpl.

Lemma body_empty_document :
  body rt (res_json rt (empty_document rt)) = empty_document_text.
Proof. reflexivity. Qed.

Lemma body_erro_document :
  body rt (res_status_json rt 500 (erro_document rt)) = erro_document_text.
Proof. reflexivity. Qed.

(** Line 15. *)
Lemma handler_missing req p :
  fs p SAIDA_PATH = Missing ->
  handler rt req p = (p, res_json rt (empty_document rt)).
Proof. intros H. now run_handler H. Qed.

(** Line 18 throws. *)
Lemma handler_unreadable req p code :
  fs p SAIDA_PATH = Unreadable code ->
  handler rt req p =
  (console_error "[ERRO] Lendo saida_posicional.json:" (SystemError code) p,
   res_status_json rt 500 (erro_document rt)).
Proof. intros H. now run_handler H. Qed.

(** Line 19 throws. *)
Lemma handler_syntax_error req p raw :
  fs p SAIDA_PATH = Regular raw -> JSON_parse rt raw = None ->
  handler rt req p =
  (console_error "[ERRO] Lendo saida_posicional.json:" SyntaxError p,
   res_status_json rt 500 (erro_document rt)).
Proof. intros H HP. run_handler H. now rewrite HP. Qed.

(** Line 22 replaces a primitive, whatever its truth value. *)
Lemma handler_primitive req p raw (v : val) :
  fs p SAIDA_PATH = Regular raw -> JSON_parse rt raw = Some v ->
  is_primitive v = true ->
  handler rt req p = (p, res_json rt (empty_document rt)).
Proof.
  intros H HP Hv. run_handler H. rewrite HP. simpl.
  destruct v as [|b|n|s|elems named|own]; simpl in *; try discriminate.
  - reflexivity.
  - now destruct b.
  - now destruct (number_ToBoolean rt n).
  - now destruct (String.eqb s EmptyString).
Qed.

(** Lines 24 to 28 on a plain object. *)
Lemma handler_object req p raw (own : props val) :
  fs p SAIDA_PATH = Regular raw -> JSON_parse rt raw = Some (JObject own) ->
  handler rt req p =
  (p, res_json rt
        (if Array_isArray rt (Props.get own "posicional") then JObject own
         else JObject (set_property own "posicional" (JArray [] [])))).
Proof.
  intros H HP. run_handler H. rewrite HP. simpl.
  now destruct (Array_isArray rt (Props.get own "posicional")).
Qed.

(** Lines 21 to 28 on an array: the guard of line 21 lets it through, and
    line 25 gives it a named property. *)
Lemma handler_array req p raw (elems : list val) (named : props val) :
  fs p SAIDA_PATH = Regular raw ->
  JSON_parse rt raw = Some (JArray elems named) ->
  handler rt req p =
  (p, res_json rt
        (if Array_isArray rt (Props.get named "posicional")
         then JArray elems named
         else JArray elems (set_property named "posicional" (JArray [] [])))).
Proof.
  intros H HP. run_handler H. rewrite HP. simpl.
  now destruct (Array_isArray rt (Props.get named "posicional")).
Qed.

(** The handler does not write to the file system. *)
Lemma handler_fs req p : fs (fst (handler rt req p)) = fs p.
Proof.
  unfold handler. now destruct (try_block rt (fs p)).
Qed.

(** What is answered, apart from what is logged. *)
Lemma handler_response req p :
  snd (handler rt req p) =
  match try_block rt (fs p) with
  | Normal r => r
  | Throw _ => res_status_json rt 500 (erro_document rt)
  end.
Proof.
  unfold handler. now destruct (try_block rt (fs p)).
Qed.

(** The response is a function of the artifact alone. *)
Lemma try_block_artifact (fs1 fs2 : filesystem) :
  fs1 SAIDA_PATH = fs2 SAIDA_PATH -> try_block rt fs1 = try_block rt fs2.
Proof.
  intros H. unfold try_block, existsSync, readFileSync. now rewrite H.
Qed.

(** The handler answers 200 or 500, and 500 exactly on a read failure. *)
Lemma handler_status req p :
  statusCode (snd (handler rt req p)) = 200
  \/ (statusCode (snd (handler rt req p)) = 500 /\ ReadFailure rt (fs p)).
Proof.
  destruct (fs p SAIDA_PATH) as [|raw|code] eqn:H.
  - left. now rewrite (handler_missing req p H).
  - destruct (JSON_parse rt raw) as [v|] eqn:HP.
    + left. destruct v as [|b|n|s|elems named|own].
      1-4: now rewrite (handler_primitive req p H HP).
      * rewrite (handler_array req p H HP).
        now destruct (Array_isArray rt (Props.get named "posicional")).
      * rewrite (handler_object req p H HP).
        now destruct (Array_isArray rt (Props.get own "posicional")).
    + right. rewrite (handler_syntax_error req p H HP). split.
      * reflexivity.
      * now apply ParseFailure with raw.
  - right. rewrite (handler_unreadable req p H). split.
    + reflexivity.
    + now apply IOFailure with code.
Qed.

End HandlerFacts.

(** * The status endpoint *)

Section StatusEndpoint.
Variable rt : Runtime.
Implicit Types (req : request) (p : process) (raw : string).

Local Abbreviation val := (value (number rt)).

Lemma ultima_is_not_posicional : "ultima_atualizacao" <> "posicional".
Proof. discriminate. Qed.

(** Every content that is not an array is answered with a plain object. *)
Lemma non_array_body_is_object req p raw (v : val) :
  fs p SAIDA_PATH = Regular raw -> JSON_parse rt raw = Some v ->
  Array_isArray rt (Some v) = false ->
  exists own, sent (snd (handler rt req p)) = JObject own.
Proof.
  intros H HP Hv. destruct v as [|b|n|s|elems named|own].
  1-4: rewrite (handler_primitive rt req p H HP eq_refl); now eexists.
  - discriminate.
  - rewrite (handler_object rt req p H HP).
    destruct (Array_isArray rt (Props.get own "posicional")); now eexists.
Qed.

(** The array is the only content whose answer is not a plain object. *)
Lemma response_is_object_unless_array req p :
  (exists raw elems named,
      fs p SAIDA_PATH = Regular raw /\
      JSON_parse rt raw = Some (JArray elems named))
  \/ exists own, sent (snd (handler rt req p)) = JObject own.
Proof.
  destruct (fs p SAIDA_PATH) as [|raw|code] eqn:H.
  - right. rewrite (handler_missing rt req p H). now eexists.
  - destruct (JSON_parse rt raw) as [v|] eqn:HP.
    + destruct (Array_isArray rt (Some v)) eqn:Hv.
      * left. destruct v; try discriminate. now exists raw, elems, named.
      * right. now apply non_array_body_is_object with raw v.
    + right. rewrite (handler_syntax_error rt req p H HP). now eexists.
  - right. rewrite (handler_unreadable rt req p H). now eexists.
Qed.

(** A content that is an array is answered with that array: the elements
    are serialised, the property written by line 25 is not. *)
Lemma array_body_is_array req p raw (elems : list val) (named : props val) :
  fs p SAIDA_PATH = Regular raw ->
  JSON_parse rt raw = Some (JArray elems named) ->
  statusCode (snd (handler rt req p)) = 200 /\
  body rt (snd (handler rt req p)) = JSON_stringify rt (JArray elems named).
Proof.
  intros H HP. rewrite (handler_array rt req p H HP).
  now destruct (Array_isArray rt (Props.get named "posicional")).
Qed.

(** C3. When the artifact file is absent the handler answers 200 with the
    body [{"posicional":[],"ultima_atualizacao":null}]; absence is not a
    read failure and nothing is written to the diagnostic stream. *)
Theorem absent_artifact_default req p :
  fs p SAIDA_PATH = Missing ->
  statusCode (snd (handler rt req p)) = 200 /\
  sent (snd (handler rt req p)) = empty_document rt /\
  body rt (snd (handler rt req p)) = empty_document_text /\
  fst (handler rt req p) = p /\
  ~ ReadFailure rt (fs p).
Proof.
  intros H. rewrite (handler_missing rt req p H). simpl.
  repeat split.
  intros [code Hc | raw Hr _]; congruence.
Qed.

(** When the content parses to an object whose [posicional] is an array,
    lines 21 to 26 change nothing: the value given to [res.json] is the
    parsed object itself. *)
Lemma valid_artifact_round_trip req p raw (own : props val)
    (elems : list val) (named : props val) (stamp : string) :
  fs p SAIDA_PATH = Regular raw ->
  JSON_parse rt raw = Some (JObject own) ->
  Props.get own "posicional" = Some (JArray elems named) ->
  Props.get own "ultima_atualizacao" = Some (JString stamp) ->
  statusCode (snd (handler rt req p)) = 200 /\
  sent (snd (handler rt req p)) = JObject own /\
  property (sent (snd (handler rt req p))) "posicional"
    = Some (JArray elems named) /\
  property (sent (snd (handler rt req p))) "ultima_atualizacao"
    = Some (JString stamp) /\
  body rt (snd (handler rt req p)) = JSON_stringify rt (JObject own).
Proof.
  intros H HP Hpos Hult. rewrite (handler_object rt req p H HP).
  rewrite Hpos. simpl. now rewrite Hpos, Hult.
Qed.

(** C5. When the content is not JSON the handler answers 500, never 200,
    with the [erro] document and nothing of the status document. *)
Theorem invalid_json_is_500 req p raw :
  fs p SAIDA_PATH = Regular raw ->
  JSON_parse rt raw = None ->
  statusCode (snd (handler rt req p)) = 500 /\
  statusCode (snd (handler rt req p)) <> 200 /\
  own_keys (sent (snd (handler rt req p))) = ["erro"] /\
  property (sent (snd (handler rt req p))) "posicional" = None /\
  body rt (snd (handler rt req p)) = erro_document_text.
Proof.
  intros H HP. rewrite (handler_syntax_error rt req p H HP). simpl.
  repeat split. discriminate.
Qed.

(** C6. When the content parses to an object whose [posicional] is present
    and is not an array, the response carries the same object with
    [posicional] overwritten by the empty array, in place;
    [ultima_atualizacao] is as it was in the source. *)
Theorem non_array_posicional_normalized req p raw (own : props val)
    (v : val) :
  fs p SAIDA_PATH = Regular raw ->
  JSON_parse rt raw = Some (JObject own) ->
  Props.get own "posicional" = Some v ->
  Array_isArray rt (Some v) = false ->
  statusCode (snd (handler rt req p)) = 200 /\
  sent (snd (handler rt req p))
    = JObject (Props.update own "posicional" (JArray [] [])) /\
  property (sent (snd (handler rt req p))) "posicional"
    = Some (JArray [] []) /\
  property (sent (snd (handler rt req p))) "ultima_atualizacao"
    = Props.get own "ultima_atualizacao".
Proof.
  intros H HP Hpos Hv. rewrite (handler_object rt req p H HP).
  rewrite Hpos, Hv.
  assert (Hhas : Props.has own "posicional" = true)
    by (apply has_true_get; now exists v).
  rewrite set_existing by exact Hhas. simpl.
  repeat split.
  - now apply get_update_same.
  - apply get_update_other. exact ultima_is_not_posicional.
Qed.

(** C7. When reading the file fails, the request is a read failure: the
    answer is 500 with the fixed [erro] body, whatever the error was, and
    the error itself goes to the diagnostic stream, in one line. *)
Theorem io_error_is_500 req p code :
  fs p SAIDA_PATH = Unreadable code ->
  ReadFailure rt (fs p) /\
  statusCode (snd (handler rt req p)) = 500 /\
  sent (snd (handler rt req p)) = erro_document rt /\
  body rt (snd (handler rt req p)) = erro_document_text /\
  stderr (fst (handler rt req p))
    = stderr p ++ [diagnostic (SystemError code)] /\
  fs (fst (handler rt req p)) = fs p.
Proof.
  intros H. rewrite (handler_unreadable rt req p H). simpl.
  repeat split. now apply IOFailure with code.
Qed.

(** The handler never reads [req]: the status it sets and the value it gives
    to [res.json] depend on the artifact state alone, not on the request,
    on what was logged before or on the kind of I/O error. *)
Lemma same_artifact_same_response req1 req2 p1 p2 :
  artifact_state (fs p1 SAIDA_PATH) = artifact_state (fs p2 SAIDA_PATH) ->
  snd (handler rt req1 p1) = snd (handler rt req2 p2) /\
  statusCode (snd (handler rt req1 p1))
    = statusCode (snd (handler rt req2 p2)) /\
  body rt (snd (handler rt req1 p1)) = body rt (snd (handler rt req2 p2)).
Proof.
  intros H.
  assert (E : snd (handler rt req1 p1) = snd (handler rt req2 p2)).
  { rewrite !handler_response.
    unfold try_block, existsSync, readFileSync.
    destruct (fs p1 SAIDA_PATH) as [|raw1|code1];
      destruct (fs p2 SAIDA_PATH) as [|raw2|code2];
      simpl in H; try discriminate; simpl.
    - reflexivity.
    - injection H as ->. reflexivity.
    - reflexivity. }
  now rewrite E.
Qed.

(** The same request twice in succession, the file unchanged between the
    two: the second answer is the first. *)
Lemma repeated_request req p :
  snd (handler rt req (fst (handler rt req p))) = snd (handler rt req p).
Proof.
  rewrite !handler_response. rewrite handler_fs. reflexivity.
Qed.

(** C9. When the content parses to an object, every key other than
    [posicional] reaches the response with the value it had, and the
    entries other than [posicional] are the same, in the same order. *)
Theorem other_keys_pass_through req p raw (own : props val) :
  fs p SAIDA_PATH = Regular raw ->
  JSON_parse rt raw = Some (JObject own) ->
  exists own',
    sent (snd (handler rt req p)) = JObject own' /\
    (forall k, k <> "posicional" -> Props.get own' k = Props.get own k) /\
    Props.without own' "posicional" = Props.without own "posicional".
Proof.
  intros H HP. rewrite (handler_object rt req p H HP).
  destruct (Array_isArray rt (Props.get own "posicional")).
  - exists own. now repeat split.
  - exists (set_property own "posicional" (JArray [] [])). repeat split.
    + intros k Hk. now apply get_set_other.
    + apply without_set.
Qed.

(** C10. On every read failure, an I/O error or a parse error alike, the
    answer is 500 with the body [{"erro":"Falha ao ler dados de saída"}]. *)
Theorem read_failure_body req p :
  ReadFailure rt (fs p) ->
  statusCode (snd (handler rt req p)) = 500 /\
  sent (snd (handler rt req p)) = erro_document rt /\
  body rt (snd (handler rt req p)) = erro_document_text.
Proof.
  intros [code H | raw H HP].
  - now rewrite (handler_unreadable rt req p H).
  - now rewrite (handler_syntax_error rt req p H HP).
Qed.

(** C2, as the code has it.  The default document, sent for an absent file
    and for a content that is [null], a boolean, a number or a string, has
    [ultima_atualizacao] with value [null].  For a content that is an
    object the response has [ultima_atualizacao] exactly when the source
    has it, with the source's value: a missing key is not added. *)
Theorem ultima_atualizacao_in_response req p :
  match fs p SAIDA_PATH with
  | Missing =>
      statusCode (snd (handler rt req p)) = 200 /\
      property (sent (snd (handler rt req p))) "ultima_atualizacao"
        = Some JNull
  | Regular raw =>
      match JSON_parse rt raw with
      | None => statusCode (snd (handler rt req p)) = 500
      | Some (JArray _ _) => True
      | Some (JObject own) =>
          statusCode (snd (handler rt req p)) = 200 /\
          property (sent (snd (handler rt req p))) "ultima_atualizacao"
            = Props.get own "ultima_atualizacao"
      | Some _ =>
          statusCode (snd (handler rt req p)) = 200 /\
          property (sent (snd (handler rt req p))) "ultima_atualizacao"
            = Some JNull
      end
  | Unreadable _ => statusCode (snd (handler rt req p)) = 500
  end.
Proof.
  destruct (fs p SAIDA_PATH) as [|raw|code] eqn:H.
  - now rewrite (handler_missing rt req p H).
  - destruct (JSON_parse rt raw) as [v|] eqn:HP.
    + destruct v as [|b|n|s|elems named|own].
      1-4: now rewrite (handler_primitive rt req p H HP eq_refl).
      * exact I.
      * rewrite (handler_object rt req p H HP).
        destruct (Array_isArray rt (Props.get own "posicional")); simpl.
        -- now split.
        -- split; [reflexivity|].
           apply get_set_other. exact ultima_is_not_posicional.
    + now rewrite (handler_syntax_error rt req p H HP).
  - now rewrite (handler_unreadable rt req p H).
Qed.

End StatusEndpoint.

(** * The endpoint on concrete files *)

(** C1, on the file [[1,2,3]].  The content parses to an array; the guard
    of line 21 does not replace it ([typeof] of an array is [object]), line
    25 writes [posicional] as a named property of the array, and the
    encoder emits the elements only: the body is [[1,2,3]], not an
    object. *)
Theorem bare_array_is_echoed :
  Fragment.parse_text array_text
    = Some (JArray [JNumber 1%Z; JNumber 2%Z; JNumber 3%Z] []) /\
  status_of (Regular array_text) = 200 /\
  sent (snd (run (Regular array_text)))
    = JArray [JNumber 1%Z; JNumber 2%Z; JNumber 3%Z]
             [("posicional", JArray [] [])] /\
  body_of (Regular array_text) = array_text /\
  body_of (Regular array_text) <> empty_document_text.
Proof.
  vm_compute. repeat split. discriminate.
Qed.

(** The claim C2 as the spec states it fails on the file
    [{"posicional":"not-an-array"}]: the answer is 200 and its body is
    [{"posicional":[]}], without the key [ultima_atualizacao]. *)
Lemma missing_ultima_atualizacao_not_added :
  status_of (Regular string_posicional_text) = 200 /\
  own_keys (sent (snd (run (Regular string_posicional_text))))
    = ["posicional"] /\
  property (sent (snd (run (Regular string_posicional_text))))
    "ultima_atualizacao" = None /\
  body_of (Regular string_posicional_text) = json_text "{'posicional':[]}" /\
  body_of (Regular string_posicional_text) <> empty_document_text.
Proof.
  vm_compute. repeat split. discriminate.
Qed.

Lemma absent_artifact_default_witness :
  fs (booted Missing) SAIDA_PATH = Missing /\
  status_of Missing = 200 /\
  body_of Missing = empty_document_text.
Proof.
  assert (H : fs (booted Missing) SAIDA_PATH = Missing) by reflexivity.
  split; [exact H|].
  destruct (@absent_artifact_default Fragment.runtime GET_saida
              (booted Missing) H) as (Hs & _ & Hb & _).
  split; [exact Hs | exact Hb].
Defined.

Lemma valid_artifact_round_trip_witness :
  JSON_parse Fragment.runtime valid_text = Some (JObject valid_object) /\
  sent (snd (run (Regular valid_text))) = JObject valid_object /\
  body_of (Regular valid_text)
    = JSON_stringify Fragment.runtime (JObject valid_object).
Proof.
  assert (HP : JSON_parse Fragment.runtime valid_text
               = Some (JObject valid_object)) by (vm_compute; reflexivity).
  split; [exact HP|].
  destruct (@valid_artifact_round_trip Fragment.runtime GET_saida
              (booted (Regular valid_text)) valid_text valid_object
              [JObject [("id", JNumber 1%Z)]] [] "2024-01-01T00:00:00Z"
              eq_refl HP eq_refl eq_refl) as (_ & Hs & _ & _ & Hb).
  split; [exact Hs | exact Hb].
Defined.

(** Scenario A, on the wire: the body is the text of the file. *)
Example valid_artifact_body : body_of (Regular valid_text) = valid_text.
Proof. vm_compute. reflexivity. Qed.

Lemma invalid_json_is_500_witness :
  JSON_parse Fragment.runtime garbage_text = None /\
  status_of (Regular garbage_text) = 500 /\
  body_of (Regular garbage_text) = erro_document_text.
Proof.
  assert (HP : JSON_parse Fragment.runtime garbage_text = None)
    by (vm_compute; reflexivity).
  split; [exact HP|].
  destruct (@invalid_json_is_500 Fragment.runtime GET_saida
              (booted (Regular garbage_text)) garbage_text eq_refl HP)
    as (Hs & _ & _ & _ & Hb).
  split; [exact Hs | exact Hb].
Defined.

Lemma non_array_posicional_normalized_witness :
  JSON_parse Fragment.runtime null_posicional_text
    = Some (JObject null_posicional_object) /\
  sent (snd (run (Regular null_posicional_text)))
    = JObject [("versao", JNumber 7%Z); ("posicional", JArray [] []);
               ("ultima_atualizacao", JString "ontem")].
Proof.
  assert (HP : JSON_parse Fragment.runtime null_posicional_text
               = Some (JObject null_posicional_object))
    by (vm_compute; reflexivity).
  split; [exact HP|].
  destruct (@non_array_posicional_normalized Fragment.runtime GET_saida
              (booted (Regular null_posicional_text)) null_posicional_text
              null_posicional_object JNull eq_refl HP eq_refl eq_refl)
    as (_ & Hs & _).
  exact Hs.
Defined.

Lemma io_error_is_500_witness :
  fs (booted (Unreadable "EACCES")) SAIDA_PATH = Unreadable "EACCES" /\
  status_of (Unreadable "EACCES") = 500 /\
  body_of (Unreadable "EACCES") = erro_document_text /\
  stderr (fst (run (Unreadable "EACCES")))
    = [diagnostic (SystemError "EACCES")].
Proof.
  split; [reflexivity|].
  destruct (@io_error_is_500 Fragment.runtime GET_saida
              (booted (Unreadable "EACCES")) "EACCES" eq_refl)
    as (_ & Hs & _ & Hb & Hl & _).
  split; [exact Hs | split; [exact Hb | exact Hl]].
Defined.

Lemma same_artifact_same_response_witness :
  artifact_state (fs (booted (Unreadable "EISDIR")) SAIDA_PATH)
    = artifact_state (fs (logged (Unreadable "EACCES")) SAIDA_PATH) /\
  snd (handler Fragment.runtime GET_saida (booted (Unreadable "EISDIR")))
    = snd (handler Fragment.runtime GET_saida_again
             (logged (Unreadable "EACCES"))).
Proof.
  split; [reflexivity|].
  exact (proj1 (@same_artifact_same_response Fragment.runtime GET_saida
                  GET_saida_again (booted (Unreadable "EISDIR"))
                  (logged (Unreadable "EACCES")) eq_refl)).
Defined.

Lemma other_keys_pass_through_witness :
  JSON_parse Fragment.runtime null_posicional_text
    = Some (JObject null_posicional_object) /\
  exists own',
    sent (snd (run (Regular null_posicional_text))) = JObject own' /\
    (forall k, k <> "posicional" ->
               Props.get own' k = Props.get null_posicional_object k) /\
    Props.without own' "posicional"
      = Props.without null_posicional_object "posicional".
Proof.
  assert (HP : JSON_parse Fragment.runtime null_posicional_text
               = Some (JObject null_posicional_object))
    by (vm_compute; reflexivity).
  split; [exact HP|].
  exact (@other_keys_pass_through Fragment.runtime GET_saida
           (booted (Regular null_posicional_text)) null_posicional_text
           null_posicional_object eq_refl HP).
Defined.

Lemma read_failure_body_witness :
  ReadFailure Fragment.runtime (fs (booted (Regular garbage_text))) /\
  status_of (Regular garbage_text) = 500 /\
  body_of (Regular garbage_text) = erro_document_text.
Proof.
  assert (HF : ReadFailure Fragment.runtime
                 (fs (booted (Regular garbage_text)))).
  { apply ParseFailure with garbage_text; vm_compute; reflexivity. }
  split; [exact HF|].
  destruct (@read_failure_body Fragment.runtime GET_saida
              (booted (Regular garbage_text)) HF) as (Hs & _ & Hb).
  split; [exact Hs | exact Hb].
Defined.

(** * More on the handler: status, log, shape of the answer *)

Section HandlerBehaviour.
Variable rt : Runtime.
Implicit Types (req : request) (p : process) (raw : string).

Local Abbreviation val := (value (number rt)).

(** One request: the file system stays, the log grows by [logged_by]. *)
Lemma handler_process req p :
  fst (handler rt req p)
  = {| fs := fs p; stderr := stderr p ++ logged_by rt (fs p) |}.
Proof.
  unfold handler, logged_by. destruct (try_block rt (fs p)); simpl.
  - rewrite app_nil_r. now destruct p.
  - reflexivity.
Qed.

Lemma try_block_not_type_error (f : filesystem) :
  try_block rt f <> Throw TypeError.
Proof.
  unfold try_block, existsSync, readFileSync, parse.
  destruct (f SAIDA_PATH) as [|raw|code]; simpl; try discriminate.
  destruct (JSON_parse rt raw) as [v|]; simpl; try discriminate.
  destruct v as [|b|n|s|elems named|own]; simpl.
  - discriminate.
  - destruct b; discriminate.
  - destruct (number_ToBoolean rt n); discriminate.
  - destruct (String.eqb s EmptyString); discriminate.
  - destruct (Array_isArray rt (Props.get named "posicional")); discriminate.
  - destruct (Array_isArray rt (Props.get own "posicional")); discriminate.
Qed.

(** The handler sets 500 exactly on a read failure and leaves the default,
    200, exactly when there is none. *)
Lemma status_500_iff_read_failure req p :
  (statusCode (snd (handler rt req p)) = 500 <-> ReadFailure rt (fs p)) /\
  (statusCode (snd (handler rt req p)) = 200 <-> ~ ReadFailure rt (fs p)).
Proof.
  assert (F : ReadFailure rt (fs p) ->
              statusCode (snd (handler rt req p)) = 500).
  { intros [code H | raw H HP].
    - now rewrite (handler_unreadable rt req p H).
    - now rewrite (handler_syntax_error rt req p H HP). }
  destruct (handler_status rt req p) as [H2 | [H5 HF]].
  - assert (N : ~ ReadFailure rt (fs p)).
    { intros HF. apply F in HF. rewrite H2 in HF. discriminate. }
    repeat split; intros; try assumption; try contradiction.
    rewrite H2 in *. discriminate.
  - repeat split; intros; try assumption.
    + rewrite H5 in *. discriminate.
    + contradiction.
Qed.

(** X2. A 200 answer leaves the process as it was: nothing is logged.  A
    500 answer adds exactly one line to the diagnostic stream, with the
    fixed prefix and the error that was thrown. *)
Theorem one_log_line_per_failure req p :
  (statusCode (snd (handler rt req p)) = 200 /\ fst (handler rt req p) = p)
  \/ (statusCode (snd (handler rt req p)) = 500 /\
      exists err,
        try_block rt (fs p) = Throw err /\
        stderr (fst (handler rt req p))
          = stderr p ++ [LogLine "[ERRO] Lendo saida_posicional.json:" err] /\
        fs (fst (handler rt req p)) = fs p).
Proof.
  destruct (handler_status rt req p) as [H2 | [H5 _]].
  - left. split; [exact H2|]. revert H2. unfold handler.
    destruct (try_block rt (fs p)); simpl; [reflexivity | discriminate].
  - right. split; [exact H5|]. revert H5. unfold handler.
    destruct (try_block rt (fs p)) as [r|err] eqn:E; simpl.
    + intros H5. exfalso. revert E H5.
      unfold try_block, existsSync, readFileSync, parse.
      destruct (fs p SAIDA_PATH) as [|raw|code]; simpl.
      * intros [= <-]. discriminate.
      * destruct (JSON_parse rt raw) as [v|]; simpl; [|discriminate].
        destruct (Get rt _ "posicional") as [g|]; simpl; [|discriminate].
        destruct (if negb (Array_isArray rt g) then _ else _) as [d|];
          simpl; [|discriminate].
        intros [= <-]. discriminate.
      * discriminate.
    + intros _. exists err. now repeat split.
Qed.

(** X3. The handler never fails with a TypeError: line 21 has replaced
    [null] before line 24 reads a property of [data].  Every line it logs
    carries a SyntaxError or a file-system error. *)
Theorem never_logs_type_error req p (line : log_line) :
  In line (stderr (fst (handler rt req p))) ->
  In line (stderr p) \/
  (log_text line = "[ERRO] Lendo saida_posicional.json:" /\
   log_detail line <> TypeError).
Proof.
  rewrite handler_process. simpl. rewrite in_app_iff.
  intros [H | H]; [now left | right].
  unfold logged_by in H.
  destruct (try_block rt (fs p)) as [r|err] eqn:E; simpl in H.
  - contradiction.
  - destruct H as [<- | []]. simpl. split; [reflexivity|].
    intros ->. exact (try_block_not_type_error (fs p) E).
Qed.

(** X4. When the content is not JSON, the one line logged carries the
    SyntaxError, and the file system is as before. *)
Theorem syntax_error_logged req p raw :
  fs p SAIDA_PATH = Regular raw ->
  JSON_parse rt raw = None ->
  stderr (fst (handler rt req p)) = stderr p ++ [diagnostic SyntaxError] /\
  fs (fst (handler rt req p)) = fs p.
Proof.
  intros H HP. now rewrite (handler_syntax_error rt req p H HP).
Qed.

(** X5. A content that is [null], a boolean, a number or a string, truthy
    or not, is answered 200 with the default document; nothing is logged. *)
Theorem primitive_content_default req p raw (v : val) :
  fs p SAIDA_PATH = Regular raw ->
  JSON_parse rt raw = Some v ->
  is_primitive v = true ->
  statusCode (snd (handler rt req p)) = 200 /\
  sent (snd (handler rt req p)) = empty_document rt /\
  body rt (snd (handler rt req p)) = empty_document_text /\
  fst (handler rt req p) = p.
Proof.
  intros H HP Hv. now rewrite (handler_primitive rt req p H HP Hv).
Qed.

(** X6. When the content is an object without [posicional], the answer is
    that object with [posicional: []] added after all its keys. *)
Theorem missing_posicional_appended req p raw (own : props val) :
  fs p SAIDA_PATH = Regular raw ->
  JSON_parse rt raw = Some (JObject own) ->
  Props.get own "posicional" = None ->
  statusCode (snd (handler rt req p)) = 200 /\
  sent (snd (handler rt req p))
    = JObject (own ++ [("posicional", JArray [] [])]) /\
  own_keys (sent (snd (handler rt req p)))
    = Props.keys own ++ ["posicional"].
Proof.
  intros H HP Hpos. rewrite (handler_object rt req p H HP).
  rewrite Hpos. simpl.
  rewrite set_new_name; [|now apply has_false_get | reflexivity].
  simpl. repeat split. unfold Props.keys. now rewrite map_app.
Qed.

(** X7. When the content is an object that has [posicional], array or not,
    the answer has the same keys in the same order. *)
Theorem present_posicional_keeps_keys req p raw (own : props val) (v : val) :
  fs p SAIDA_PATH = Regular raw ->
  JSON_parse rt raw = Some (JObject own) ->
  Props.get own "posicional" = Some v ->
  own_keys (sent (snd (handler rt req p))) = Props.keys own.
Proof.
  intros H HP Hpos. rewrite (handler_object rt req p H HP).
  destruct (Array_isArray rt (Props.get own "posicional")); simpl.
  - reflexivity.
  - rewrite set_existing by (apply has_true_get; now exists v).
    apply keys_update.
Qed.

(** X8. In every 200 answer to a content that is not an array, the document
    is an object whose [posicional] is an array. *)
Theorem posicional_is_always_an_array req p :
  statusCode (snd (handler rt req p)) = 200 ->
  (forall raw elems named,
      fs p SAIDA_PATH = Regular raw ->
      JSON_parse rt raw <> Some (JArray elems named)) ->
  exists own elems named,
    sent (snd (handler rt req p)) = JObject own /\
    Props.get own "posicional" = Some (JArray elems named).
Proof.
  intros H2 HA.
  destruct (fs p SAIDA_PATH) as [|raw|code] eqn:H.
  - rewrite (handler_missing rt req p H). now eexists _, _, _.
  - destruct (JSON_parse rt raw) as [v|] eqn:HP.
    + destruct v as [|b|n|s|elems named|own].
      1-4: rewrite (handler_primitive rt req p H HP eq_refl);
           now eexists _, _, _.
      * now destruct (HA raw elems named eq_refl).
      * rewrite (handler_object rt req p H HP).
        destruct (Props.get own "posicional") as [[|b|n|s|elems named|o]|]
          eqn:Hpos; simpl.
        5: { exists own, elems, named. now split. }
        all: eexists _, [], []; split; [reflexivity | apply get_set_same].
    + rewrite (handler_syntax_error rt req p H HP) in H2. discriminate.
  - rewrite (handler_unreadable rt req p H) in H2. discriminate.
Qed.

(** X9. A content that parses to an array, whatever its elements, is
    answered 200 with the encoding of its elements between brackets; the
    document is not an object, and nothing is logged. *)
Theorem array_content_echoed req p raw (elems : list val)
    (named : props val) :
  fs p SAIDA_PATH = Regular raw ->
  JSON_parse rt raw = Some (JArray elems named) ->
  statusCode (snd (handler rt req p)) = 200 /\
  body rt (snd (handler rt req p))
    = ("[" ++ String.concat "," (map (JSON_stringify rt) elems) ++ "]")%string
  /\
  (forall own, sent (snd (handler rt req p)) <> JObject own) /\
  fst (handler rt req p) = p.
Proof.
  intros H HP. rewrite (handler_array rt req p H HP).
  destruct (Array_isArray rt (Props.get named "posicional")); simpl;
    repeat split; discriminate.
Qed.

(** X10. Normalisation is idempotent: an artifact whose content parses to
    the document of a 200 answer is answered with that same document. *)
Theorem normalization_idempotent req p req' p' raw' :
  statusCode (snd (handler rt req p)) = 200 ->
  fs p' SAIDA_PATH = Regular raw' ->
  JSON_parse rt raw' = Some (sent (snd (handler rt req p))) ->
  snd (handler rt req' p') = snd (handler rt req p).
Proof.
  intros H2 H' HP'.
  assert (D : forall d : val,
             JSON_parse rt raw' = Some d ->
             (exists own elems named,
                 d = JObject own /\
                 Props.get own "posicional" = Some (JArray elems named))
             \/ (exists elems named es ns,
                     d = JArray elems named /\
                     Props.get named "posicional" = Some (JArray es ns)) ->
             snd (handler rt req' p') = res_json rt d).
  { intros d Hd [(own & elems & named & -> & Hg)
                 | (elems & named & es & ns & -> & Hg)].
    - rewrite (handler_object rt req' p' H' Hd). now rewrite Hg.
    - rewrite (handler_array rt req' p' H' Hd). now rewrite Hg. }
  revert H2 HP'.
  destruct (fs p SAIDA_PATH) as [|raw|code] eqn:H.
  - rewrite (handler_missing rt req p H). simpl. intros _ HP'.
    apply D; [exact HP'|]. left. now eexists _, _, _.
  - destruct (JSON_parse rt raw) as [v|] eqn:HP.
    + destruct v as [|b|n|s|elems named|own].
      1-4: rewrite (handler_primitive rt req p H HP eq_refl); simpl;
           intros _ HP'; apply D; [exact HP'|]; left; now eexists _, _, _.
      * rewrite (handler_array rt req p H HP).
        destruct (Props.get named "posicional") as [[|b|n|s|es ns|o]|]
          eqn:Hpos; simpl; intros _ HP'; apply D; try exact HP'; right.
        5: { now exists elems, named, es, ns. }
        all: eexists elems, _, [], []; split;
          [reflexivity | apply get_set_same].
      * rewrite (handler_object rt req p H HP).
        destruct (Props.get own "posicional") as [[|b|n|s|es ns|o]|]
          eqn:Hpos; simpl; intros _ HP'; apply D; try exact HP'; left.
        5: { now exists own, es, ns. }
        all: eexists _, [], []; split; [reflexivity | apply get_set_same].
    + rewrite (handler_syntax_error rt req p H HP). discriminate.
  - rewrite (handler_unreadable rt req p H). discriminate.
Qed.

End HandlerBehaviour.

(** * The same, on concrete files *)

Lemma never_logs_type_error_witness :
  In (diagnostic SyntaxError) (stderr (fst (run (Regular garbage_text)))) /\
  log_detail (diagnostic SyntaxError) <> TypeError.
Proof.
  assert (H : In (diagnostic SyntaxError)
                (stderr (fst (run (Regular garbage_text)))))
    by (vm_compute; now left).
  split; [exact H|].
  destruct (@never_logs_type_error Fragment.runtime GET_saida
              (booted (Regular garbage_text)) (diagnostic SyntaxError) H)
    as [[] | [_ Hd]].
  exact Hd.
Defined.

Lemma syntax_error_logged_witness :
  JSON_parse Fragment.runtime garbage_text = None /\
  stderr (fst (handler Fragment.runtime GET_saida
                 (logged (Regular garbage_text))))
    = [diagnostic TypeError; diagnostic SyntaxError].
Proof.
  assert (HP : JSON_parse Fragment.runtime garbage_text = None)
    by (vm_compute; reflexivity).
  split; [exact HP|].
  exact (proj1 (@syntax_error_logged Fragment.runtime GET_saida
                  (logged (Regular garbage_text)) garbage_text eq_refl HP)).
Defined.

Lemma primitive_content_default_witness :
  JSON_parse Fragment.runtime zero_text = Some (JNumber 0%Z) /\
  status_of (Regular zero_text) = 200 /\
  body_of (Regular zero_text) = empty_document_text.
Proof.
  assert (HP : JSON_parse Fragment.runtime zero_text = Some (JNumber 0%Z))
    by (vm_compute; reflexivity).
  split; [exact HP|].
  destruct (@primitive_content_default Fragment.runtime GET_saida
              (booted (Regular zero_text)) zero_text (JNumber 0%Z)
              eq_refl HP eq_refl) as (Hs & _ & Hb & _).
  split; [exact Hs | exact Hb].
Defined.

Lemma missing_posicional_appended_witness :
  JSON_parse Fragment.runtime no_posicional_text
    = Some (JObject no_posicional_object) /\
  own_keys (sent (snd (run (Regular no_posicional_text))))
    = ["7"; "versao"; "ultima_atualizacao"; "posicional"].
Proof.
  assert (HP : JSON_parse Fragment.runtime no_posicional_text
               = Some (JObject no_posicional_object))
    by (vm_compute; reflexivity).
  split; [exact HP|].
  destruct (@missing_posicional_appended Fragment.runtime GET_saida
              (booted (Regular no_posicional_text)) no_posicional_text
              no_posicional_object eq_refl HP eq_refl) as (_ & _ & Hk).
  exact Hk.
Defined.

Lemma present_posicional_keeps_keys_witness :
  JSON_parse Fragment.runtime null_posicional_text
    = Some (JObject null_posicional_object) /\
  own_keys (sent (snd (run (Regular null_posicional_text))))
    = ["versao"; "posicional"; "ultima_atualizacao"].
Proof.
  assert (HP : JSON_parse Fragment.runtime null_posicional_text
               = Some (JObject null_posicional_object))
    by (vm_compute; reflexivity).
  split; [exact HP|].
  exact (@present_posicional_keeps_keys Fragment.runtime GET_saida
           (booted (Regular null_posicional_text)) null_posicional_text
           null_posicional_object JNull eq_refl HP eq_refl).
Defined.

Lemma posicional_is_always_an_array_witness :
  status_of (Regular no_posicional_text) = 200 /\
  exists own elems named,
    sent (snd (run (Regular no_posicional_text))) = JObject own /\
    Props.get own "posicional" = Some (JArray elems named).
Proof.
  assert (H2 : status_of (Regular no_posicional_text) = 200)
    by (vm_compute; reflexivity).
  split; [exact H2|].
  apply (@posicional_is_always_an_array Fragment.runtime GET_saida
           (booted (Regular no_posicional_text)) H2).
  intros raw elems named H. vm_compute in H. injection H as <-.
  vm_compute. discriminate.
Defined.

Lemma array_content_echoed_witness :
  JSON_parse Fragment.runtime empty_array_text = Some (JArray [] []) /\
  status_of (Regular empty_array_text) = 200 /\
  body_of (Regular empty_array_text) = empty_array_text.
Proof.
  assert (HP : JSON_parse Fragment.runtime empty_array_text
               = Some (JArray [] [])) by (vm_compute; reflexivity).
  split; [exact HP|].
  destruct (@array_content_echoed Fragment.runtime GET_saida
              (booted (Regular empty_array_text)) empty_array_text [] []
              eq_refl HP) as (Hs & Hb & _).
  split; [exact Hs | exact Hb].
Defined.

Lemma normalization_idempotent_witness :
  status_of (Regular string_posicional_text) = 200 /\
  JSON_parse Fragment.runtime normalized_text
    = Some (sent (snd (run (Regular string_posicional_text)))) /\
  snd (handler Fragment.runtime GET_saida_again
         (logged (Regular normalized_text)))
    = snd (run (Regular string_posicional_text)).
Proof.
  assert (H2 : status_of (Regular string_posicional_text) = 200)
    by (vm_compute; reflexivity).
  assert (HP : JSON_parse Fragment.runtime normalized_text
               = Some (sent (snd (run (Regular string_posicional_text)))))
    by (vm_compute; reflexivity).
  split; [exact H2 | split; [exact HP|]].
  exact (@normalization_idempotent Fragment.runtime GET_saida
           (booted (Regular string_posicional_text)) GET_saida_again
           (logged (Regular normalized_text)) normalized_text
           H2 eq_refl HP).
Defined.

(** * From the handler to the wire *)

Section Wire.
Variable fw : Framework.
Variable rt : Runtime.
Implicit Types (req : request) (p : process).

Lemma answer_unfold req p :
  answer fw rt req p
  = (fst (handler rt req p),
     res_send fw req (statusCode (snd (handler rt req p)))
       (body rt (snd (handler rt req p)))).
Proof. unfold answer. now destruct (handler rt req p). Qed.

(** A 500 is never taken for fresh. *)
Lemma req_fresh_500 req chunk : req_fresh fw req 500 chunk = false.
Proof.
  unfold req_fresh. simpl. now rewrite andb_false_r.
Qed.

(** C8, as the code has it.  Two invocations whose requests have the same
    method and the same headers, and which observe the same artifact state,
    are answered with the same status and the same body, whatever the URL
    query, whatever was logged before and whichever I/O error makes the file
    unreadable. *)
Theorem same_request_same_answer req1 req2 p1 p2 :
  method req1 = method req2 ->
  headers req1 = headers req2 ->
  artifact_state (fs p1 SAIDA_PATH) = artifact_state (fs p2 SAIDA_PATH) ->
  snd (answer fw rt req1 p1) = snd (answer fw rt req2 p2) /\
  wire_status (snd (answer fw rt req1 p1))
    = wire_status (snd (answer fw rt req2 p2)) /\
  wire_body (snd (answer fw rt req1 p1))
    = wire_body (snd (answer fw rt req2 p2)).
Proof.
  intros Hm Hh Hs.
  assert (E : snd (answer fw rt req1 p1) = snd (answer fw rt req2 p2)).
  { rewrite !answer_unfold. simpl.
    destruct (same_artifact_same_response rt req1 req2 p1 p2 Hs) as [-> _].
    unfold res_send, req_fresh. now rewrite Hm, Hh. }
  now rewrite E.
Qed.

(** X1. On the wire the status is 500 exactly on a read failure, and a 500
    to a GET always carries the [erro] body: a failure is never revalidated
    into a 304.  Without a read failure the status is 304 when Express
    finds the request fresh for the body, and 200 when it does not. *)
Theorem wire_status_by_failure req p :
  (wire_status (snd (answer fw rt req p)) = 500
   <-> ReadFailure rt (fs p)) /\
  (ReadFailure rt (fs p) -> method req = "GET" ->
   wire_body (snd (answer fw rt req p)) = erro_document_text) /\
  (~ ReadFailure rt (fs p) ->
   wire_status (snd (answer fw rt req p))
   = if req_fresh fw req 200 (body rt (snd (handler rt req p)))
     then 304 else 200).
Proof.
  rewrite answer_unfold. cbn [snd].
  destruct (status_500_iff_read_failure rt req p) as [[H5 H5'] [H2 H2']].
  assert (F : ReadFailure rt (fs p) ->
              res_send fw req (statusCode (snd (handler rt req p)))
                (body rt (snd (handler rt req p)))
              = {| wire_status := 500;
                   wire_body := if String.eqb (method req) "HEAD"
                                then EmptyString else erro_document_text |}).
  { intros HF.
    assert (B : body rt (snd (handler rt req p)) = erro_document_text).
    { destruct HF as [code H | raw H HP].
      - now rewrite (handler_unreadable rt req p H).
      - now rewrite (handler_syntax_error rt req p H HP). }
    rewrite (H5' HF), B. unfold res_send. now rewrite req_fresh_500. }
  assert (N : ~ ReadFailure rt (fs p) ->
              wire_status
                (res_send fw req (statusCode (snd (handler rt req p)))
                   (body rt (snd (handler rt req p))))
              = if req_fresh fw req 200 (body rt (snd (handler rt req p)))
                then 304 else 200).
  { intros HN. rewrite (H2' HN). unfold res_send. simpl.
    now destruct (req_fresh fw req 200 _). }
  repeat split.
  - intros H. destruct (handler_status rt req p) as [E2 | [_ HF]].
    + exfalso. rewrite (N (proj1 (conj H2 H2') E2)) in H.
      destruct (req_fresh fw req 200 _); discriminate.
    + exact HF.
  - intros HF. now rewrite (F HF).
  - intros HF Hm. rewrite (F HF), Hm. reflexivity.
  - exact N.
Qed.

(** X11. The same request issued twice in succession, the file unchanged in
    between, is answered twice alike, status and body; neither run writes
    the file system. *)
Theorem twice_in_succession req p :
  snd (answer fw rt req (fst (answer fw rt req p)))
    = snd (answer fw rt req p) /\
  fs (fst (answer fw rt req (fst (answer fw rt req p)))) = fs p.
Proof.
  rewrite !answer_unfold. cbn [fst snd].
  rewrite !handler_response, !handler_fs. split; reflexivity.
Qed.

End Wire.

(** The claim C8 as the spec states it fails: on one artifact state (no
    file) a GET is answered 200 with the default body, a HEAD is answered
    200 without a body, and a GET that revalidates with [If-None-Match: *]
    is answered 304 without a body. *)
Lemma request_changes_the_answer :
  artifact_state (fs (booted Missing) SAIDA_PATH)
    = artifact_state (fs (logged Missing) SAIDA_PATH) /\
  snd (answer Revalidation.framework Fragment.runtime GET_saida
         (booted Missing))
    = {| wire_status := 200; wire_body := empty_document_text |} /\
  snd (answer Revalidation.framework Fragment.runtime HEAD_saida
         (logged Missing))
    = {| wire_status := 200; wire_body := EmptyString |} /\
  snd (answer Revalidation.framework Fragment.runtime
         GET_saida_if_none_match_any (logged Missing))
    = {| wire_status := 304; wire_body := EmptyString |}.
Proof. vm_compute. repeat split. Qed.

Lemma same_request_same_answer_witness :
  artifact_state (fs (booted (Unreadable "EISDIR")) SAIDA_PATH)
    = artifact_state (fs (logged (Unreadable "EACCES")) SAIDA_PATH) /\
  snd (answer Revalidation.framework Fragment.runtime GET_saida
         (booted (Unreadable "EISDIR")))
    = snd (answer Revalidation.framework Fragment.runtime GET_saida_again
             (logged (Unreadable "EACCES"))).
Proof.
  split; [reflexivity|].
  exact (proj1 (@same_request_same_answer Revalidation.framework
                  Fragment.runtime GET_saida GET_saida_again
                  (booted (Unreadable "EISDIR"))
                  (logged (Unreadable "EACCES")) eq_refl eq_refl eq_refl)).
Defined.


(** * Reading back what [JSON.stringify] wrote

    On [Wide.runtime], parsing the encoding of a well-formed value gives
    the value back, with [null] where a number was not finite; and every
    value the parser returns is well formed. *)

(** ** Strings *)



(** ** Decimal digits: what [digits_value] reads is what the printer wrote *)









(** ** A quoted string reads back as the string *)



(** ** Members in enumeration order are rebuilt as they are *)

Section Canonical.
Variable V : Type.
Implicit Types (o pre : props V) (k : string) (v : V).







End Canonical.

Local Abbreviation enc := (JSON_stringify Wide.runtime).






Lemma skip_ws_opens (s : string) : opens_value s -> Fragment.skip_ws s = s.
Proof.
  destruct s as [|c s]; simpl; [tauto|]. now intros [-> _].
Qed.















(** ** The fuel of [Wide.parse_text] is enough *)










(** ** What the parser returns is well formed *)












(** ** Adding a member keeps the keys distinct and in order *)

Section SetKeeps.
Variable V : Type.
Implicit Types (o : props V) (k : string) (v : V).









End SetKeeps.





(** * The answer read back *)







(** The body of that answer, on the wire: the same document, spelled as
    [JSON.stringify] spells it. *)
Example escaped_body :
  body Wide.runtime
    (snd (handler Wide.runtime GET_saida (booted (Regular escaped_text))))
  = json_text
      "{'2':[],'10':-40,'posicional':[{'id':100,'nota':'a\'b\\c/d'},[true,null]],'ultima_atualizacao':'2024-01-01T00:00:00Z'}".
Proof. vm_compute. reflexivity. Qed.
